(** * rosbridge-ai: the minimal rosbridge launch description

    A shallow embedding of [docker/launch_rosbridge.launch.py] and of the
    argument resolution that the launch runtime applies to the description
    it returns.

    - Python [str] is [string], [bool] is [bool], [int] is [Z] and [float]
      is an IEEE binary64 value ([spec_float] with precision 53).
    - A keyword-argument constructor call is a record; a keyword that the
      call leaves out takes the constructor's default ([parameters=None]).
    - A [dict] literal is an association list in source order.
    - [context.launch_configurations] is a [gmap string string].
    - The call of the function itself is also given with its effects: a
      computation over an interpreter state that may raise, in which the
      imported constructors are an interface. *)

From Stdlib Require Import ZArith Floats.SpecFloat.
From stdpp Require Import gmap strings list.

Open Scope string_scope.

(** ** Values that occur in the launch file *)

(** Python [float]: binary64, 53 bits of precision, [emax = 1024]. *)
Definition float_prec : Z := 53.
Definition float_emax : Z := 1024.

(** The float written as the decimal literal [m.0]. *)
Definition float_of_Z (m : Z) : spec_float :=
  binary_normalize float_prec float_emax m 0 false.

(** [launch.substitutions]: the one substitution the file uses. *)
Inductive Substitution : Type :=
| LaunchConfiguration (variable_name : string).

(** A value of a parameter dictionary, as written in the source: either a
    deferred substitution or a plain Python literal. *)
Inductive SomeValue : Type :=
| VSubstitution (s : Substitution)
| VStr (s : string)
| VBool (b : bool)
| VInt (n : Z)
| VFloat (x : spec_float).

Definition ParametersDict : Type := list (string * SomeValue).

(** [launch.actions.DeclareLaunchArgument(name, default_value=, description=)] *)
Module DeclareLaunchArgument.
Record t : Type := make {
  name : string;
  default_value : string;
  description : string
}.
End DeclareLaunchArgument.

(** [launch_ros.actions.Node(package=, executable=, name=, output=, parameters=)];
    [parameters] is [None] when the call does not pass it. *)
Module Node.
Record t : Type := make {
  package : string;
  executable : string;
  name : string;
  output : string;
  parameters : option (list ParametersDict)
}.
End Node.

(** The two kinds of entity that the file puts in its description. *)
Inductive LaunchDescriptionEntity : Type :=
| EArgument (a : DeclareLaunchArgument.t)
| ENode (n : Node.t).

Module LaunchDescription.
Record t : Type := make { entities : list LaunchDescriptionEntity }.
End LaunchDescription.

(** ** The launch file *)

(** Lines 15-17. *)
Definition port_arg : DeclareLaunchArgument.t :=
  {| DeclareLaunchArgument.name := "port";
     DeclareLaunchArgument.default_value := "9090";
     DeclareLaunchArgument.description := "Port for rosbridge websocket server" |}.

(** Lines 19-35. *)
Definition rosbridge_node : Node.t :=
  {| Node.package := "rosbridge_server";
     Node.executable := "rosbridge_websocket";
     Node.name := "rosbridge_websocket";
     Node.output := "screen";
     Node.parameters := Some [
       [ ("port", VSubstitution (LaunchConfiguration "port"));
         ("address", VStr "0.0.0.0");
         ("use_compression", VBool false);
         ("max_message_size", VInt 10000000);
         ("send_action_goals_in_new_thread", VBool true);
         ("call_services_in_new_thread", VBool true);
         ("default_call_service_timeout", VFloat (float_of_Z 5)) ] ] |}.

(** Lines 37-42. *)
Definition rosapi_node : Node.t :=
  {| Node.package := "rosapi";
     Node.executable := "rosapi_node";
     Node.name := "rosapi";
     Node.output := "screen";
     Node.parameters := None |}.

(** Lines 14-44. The function takes no argument: a call is [_ tt]. *)
Definition generate_launch_description (_ : unit) : LaunchDescription.t :=
  LaunchDescription.make
    [EArgument port_arg; ENode rosbridge_node; ENode rosapi_node].

(** ** Reading a description *)

(** [d.get(key)] on a dictionary kept as an association list. *)
Fixpoint dict_get {V : Type} (key : string) (d : list (string * V)) : option V :=
  match d with
  | [] => None
  | (k, v) :: d' => if decide (k = key) then Some v else dict_get key d'
  end.

Definition dict_keys {V : Type} (d : list (string * V)) : list string :=
  map fst d.

(** The entities by position in the returned sequence. *)
Definition argument_declaration (ld : LaunchDescription.t)
  : option DeclareLaunchArgument.t :=
  match LaunchDescription.entities ld !! 0%nat with
  | Some (EArgument a) => Some a
  | _ => None
  end.

Definition bridge_process_spec (ld : LaunchDescription.t) : option Node.t :=
  match LaunchDescription.entities ld !! 1%nat with
  | Some (ENode n) => Some n
  | _ => None
  end.

Definition api_process_spec (ld : LaunchDescription.t) : option Node.t :=
  match LaunchDescription.entities ld !! 2%nat with
  | Some (ENode n) => Some n
  | _ => None
  end.

Definition is_argument (e : LaunchDescriptionEntity) : bool :=
  match e with EArgument _ => true | ENode _ => false end.

Definition is_node (e : LaunchDescriptionEntity) : bool :=
  match e with EArgument _ => false | ENode _ => true end.

(** All the key/value pairs a node was given, [None] counting as none. *)
Definition node_parameters (n : Node.t) : list (string * SomeValue) :=
  match Node.parameters n with
  | None => []
  | Some ds => concat ds
  end.

(** The configuration names that a value, and a node, refer to. *)
Definition value_references (v : SomeValue) : list string :=
  match v with
  | VSubstitution (LaunchConfiguration x) => [x]
  | _ => []
  end.

Definition node_references (n : Node.t) : list string :=
  flat_map (fun kv => value_references (snd kv)) (node_parameters n).

(** Every name a node refers to is declared by an argument placed before
    that node; [declared] holds the names declared so far. *)
Fixpoint declared_before_use
    (declared : list string) (es : list LaunchDescriptionEntity) : bool :=
  match es with
  | [] => true
  | EArgument a :: es' =>
      declared_before_use (DeclareLaunchArgument.name a :: declared) es'
  | ENode n :: es' =>
      forallb (fun x => bool_decide (x ∈ declared)) (node_references n)
      && declared_before_use declared es'
  end.

(** ** Argument resolution by the launch runtime *)

(** Modelled from the spec: the launch runtime that consumes the returned
    description (the [launch] and [launch_ros] packages) is not part of the
    repository. The spec gives its part in this file's behaviour: it holds
    the overrides given at invocation ([port:=8080]), it takes the entities
    in the order of the sequence, an Argument takes its default value unless
    it is overridden, and the resolved value of the Argument is substituted,
    as a string and unchanged, into the parameter that refers to it; a
    reference resolves only when its argument was declared before it. *)
Inductive LaunchError : Type :=
| SubstitutionFailure (variable_name : string).

(** Modelled from the spec: the outcome of a step of the runtime, a value
    or the error it raises. *)
Inductive result (A : Type) : Type :=
| Ok (a : A)
| Raise (e : LaunchError).
Arguments Ok {A} a.
Arguments Raise {A} e.

#[global] Instance result_ret : MRet result := fun _ a => Ok a.
#[global] Instance result_bind : MBind result := fun _ _ f r =>
  match r with
  | Ok a => f a
  | Raise e => Raise e
  end.

(** Modelled from the spec: a parameter value after resolution; no deferred
    slot is left. *)
Inductive ParameterValue : Type :=
| PStr (s : string)
| PBool (b : bool)
| PInt (n : Z)
| PFloat (x : spec_float).

(** Modelled from the spec: a ProcessSpec as the runtime spawns it, identity
    fields unchanged and parameters resolved. *)
Module Process.
Record t : Type := make {
  package : string;
  executable : string;
  name : string;
  output : string;
  parameters : list (string * ParameterValue)
}.
End Process.

(** Modelled from the spec: the deferred substitution reads the resolved
    value of the named argument and fails when there is none. *)
Definition perform (context : gmap string string) (s : Substitution)
  : result string :=
  match s with
  | LaunchConfiguration x =>
      match context !! x with
      | Some v => Ok v
      | None => Raise (SubstitutionFailure x)
      end
  end.

(** Modelled from the spec: literals are fixed, the substituted value is
    passed through as the string it is. *)
Definition evaluate_value (context : gmap string string) (v : SomeValue)
  : result ParameterValue :=
  match v with
  | VSubstitution s => x ← perform context s; mret (PStr x)
  | VStr s => mret (PStr s)
  | VBool b => mret (PBool b)
  | VInt n => mret (PInt n)
  | VFloat x => mret (PFloat x)
  end.

(** Modelled from the spec: a parameter set is resolved entry by entry, in
    order, keys unchanged. *)
Fixpoint evaluate_parameters
    (context : gmap string string) (d : list (string * SomeValue))
  : result (list (string * ParameterValue)) :=
  match d with
  | [] => mret []
  | (k, v) :: d' =>
      v' ← evaluate_value context v;
      rest ← evaluate_parameters context d';
      mret ((k, v') :: rest)
  end.

(** Modelled from the spec: spawning a node resolves its parameters in the
    current context. *)
Definition execute_node (context : gmap string string) (n : Node.t)
  : result Process.t :=
  ps ← evaluate_parameters context (node_parameters n);
  mret {| Process.package := Node.package n;
          Process.executable := Node.executable n;
          Process.name := Node.name n;
          Process.output := Node.output n;
          Process.parameters := ps |}.

(** Modelled from the spec: declaring an argument gives it its default
    value unless the invocation has overridden it. *)
Definition execute_argument
    (context : gmap string string) (a : DeclareLaunchArgument.t)
  : gmap string string :=
  match context !! DeclareLaunchArgument.name a with
  | Some _ => context
  | None =>
      <[DeclareLaunchArgument.name a := DeclareLaunchArgument.default_value a]>
        context
  end.

(** Modelled from the spec: the entities are taken in sequence order, the
    context threaded through; the result is the final context and the
    processes spawned, in order. *)
Fixpoint visit_all
    (context : gmap string string) (es : list LaunchDescriptionEntity)
  : result (gmap string string * list Process.t) :=
  match es with
  | [] => mret (context, [])
  | EArgument a :: es' => visit_all (execute_argument context a) es'
  | ENode n :: es' =>
      p ← execute_node context n;
      '(context', ps) ← visit_all context es';
      mret (context', p :: ps)
  end.

(** Modelled from the spec: one run, started with the overrides given at
    invocation; it yields the processes to spawn. *)
Definition launch
    (launch_arguments : gmap string string) (ld : LaunchDescription.t)
  : result (list Process.t) :=
  '(_, ps) ← visit_all launch_arguments (LaunchDescription.entities ld);
  mret ps.

(** The bridge process of a run is the first one spawned, the API process
    the second. *)
Definition bridge_process (r : result (list Process.t)) : option Process.t :=
  match r with
  | Ok ps => ps !! 0%nat
  | Raise _ => None
  end.

Definition api_process (r : result (list Process.t)) : option Process.t :=
  match r with
  | Ok ps => ps !! 1%nat
  | Raise _ => None
  end.

(** The bridge process with its parameters resolved, for a resolved port
    value [v]; [5.0] is the binary64 value [5 * 2^50 * 2^-50]. *)
Definition resolved_bridge (v : string) : Process.t :=
  {| Process.package := "rosbridge_server";
     Process.executable := "rosbridge_websocket";
     Process.name := "rosbridge_websocket";
     Process.output := "screen";
     Process.parameters :=
       [ ("port", PStr v);
         ("address", PStr "0.0.0.0");
         ("use_compression", PBool false);
         ("max_message_size", PInt 10000000);
         ("send_action_goals_in_new_thread", PBool true);
         ("call_services_in_new_thread", PBool true);
         ("default_call_service_timeout",
          PFloat (S754_finite false 5629499534213120 (-50))) ] |}.

(** The API process as spawned. *)
Definition resolved_api : Process.t :=
  {| Process.package := "rosapi";
     Process.executable := "rosapi_node";
     Process.name := "rosapi";
     Process.output := "screen";
     Process.parameters := [] |}.

Definition resolved_processes (v : string) : list Process.t :=
  [resolved_bridge v; resolved_api].

(** ** The call of the assembler, with its effects *)

(** A Python call run in an interpreter state [W] (the process environment,
    the invocation arguments, the module globals): it returns a value or
    raises an exception [E], and leaves a state behind either way. *)
Definition Py (W E A : Type) : Type := W → (E + A) * W.

#[global] Instance py_ret {W E : Type} : MRet (Py W E) :=
  fun _ a w => (inr a, w).
#[global] Instance py_bind {W E : Type} : MBind (Py W E) :=
  fun _ _ f m w =>
    match m w with
    | (inr a, w') => f a w'
    | (inl e, w') => (inl e, w')
    end.

(** The four constructors that the file imports (lines 8-11) and calls. They
    belong to the [launch] and [launch_ros] packages, outside the
    repository, so they are an interface here: each is a call that may
    raise and may touch the state, and returns the object it built. *)
Record LaunchLibrary (W E : Type) : Type := {
  new_DeclareLaunchArgument :
    string → string → string → Py W E DeclareLaunchArgument.t;
  new_LaunchConfiguration : string → Py W E Substitution;
  new_Node :
    string → string → string → string → option (list ParametersDict) →
    Py W E Node.t;
  new_LaunchDescription :
    list LaunchDescriptionEntity → Py W E LaunchDescription.t
}.
Arguments new_DeclareLaunchArgument {W E} _ _ _ _ _.
Arguments new_LaunchConfiguration {W E} _ _ _.
Arguments new_Node {W E} _ _ _ _ _ _ _.
Arguments new_LaunchDescription {W E} _ _ _.

(** Lines 14-44, statement by statement, in Python's order of evaluation:
    the [LaunchConfiguration] of line 26 is built while the dictionary of
    the bridge node is, before the [Node] call of line 19 is made. *)
Definition generate_launch_description_call
    {W E : Type} (lib : LaunchLibrary W E) : Py W E LaunchDescription.t :=
  port_arg ← new_DeclareLaunchArgument lib
    "port" "9090" "Port for rosbridge websocket server";
  port ← new_LaunchConfiguration lib "port";
  rosbridge_node ← new_Node lib
    "rosbridge_server" "rosbridge_websocket" "rosbridge_websocket" "screen"
    (Some [
       [ ("port", VSubstitution port);
         ("address", VStr "0.0.0.0");
         ("use_compression", VBool false);
         ("max_message_size", VInt 10000000);
         ("send_action_goals_in_new_thread", VBool true);
         ("call_services_in_new_thread", VBool true);
         ("default_call_service_timeout", VFloat (float_of_Z 5)) ] ]);
  rosapi_node ← new_Node lib "rosapi" "rosapi_node" "rosapi" "screen" None;
  new_LaunchDescription lib
    [EArgument port_arg; ENode rosbridge_node; ENode rosapi_node].







(** A library that counts, in the state, the objects it has built. *)
Definition counting_library : LaunchLibrary nat string :=
  {| new_DeclareLaunchArgument n d s :=
       fun w => (inr (DeclareLaunchArgument.make n d s), S w);
     new_LaunchConfiguration x := fun w => (inr (LaunchConfiguration x), S w);
     new_Node p e n o ps := fun w => (inr (Node.make p e n o ps), S w);
     new_LaunchDescription es :=
       fun w => (inr (LaunchDescription.make es), S w) |}.

(** A library whose [Node] refuses a package it does not know. *)
Definition strict_library : LaunchLibrary nat string :=
  {| new_DeclareLaunchArgument n d s :=
       fun w => (inr (DeclareLaunchArgument.make n d s), S w);
     new_LaunchConfiguration x := fun w => (inr (LaunchConfiguration x), S w);
     new_Node p e n o ps :=
       fun w => if decide (p = "rosbridge_server")
                then (inr (Node.make p e n o ps), S w)
                else (inl ("package not found: " +:+ p), w);
     new_LaunchDescription es :=
       fun w => (inr (LaunchDescription.make es), S w) |}.

Example run_default :
  launch ∅ (generate_launch_description tt) = Ok (resolved_processes "9090").
Proof. vm_compute. reflexivity. Qed.

Example run_8080 :
  launch {[ "port" := "8080" ]} (generate_launch_description tt)
  = Ok (resolved_processes "8080").
Proof. vm_compute. reflexivity. Qed.

(** ** The runtime model: general facts *)

Lemma float_of_Z_5 :
  float_of_Z 5 = S754_finite false 5629499534213120 (-50).
Proof. vm_compute. reflexivity. Qed.

(** Declaring an argument leaves it resolved: to the override when there is
    one, to the default value otherwise. *)
Lemma execute_argument_lookup
    (context : gmap string string) (a : DeclareLaunchArgument.t) :
  execute_argument context a !! DeclareLaunchArgument.name a
  = Some (default (DeclareLaunchArgument.default_value a)
                  (context !! DeclareLaunchArgument.name a)).
Proof.
  unfold execute_argument.
  destruct (context !! DeclareLaunchArgument.name a) as [v|] eqn:Hv; simpl.
  - exact Hv.
  - apply lookup_insert_eq.
Qed.

(** Declaring an argument never changes or removes a resolved name. *)
Lemma execute_argument_preserves
    (context : gmap string string) (a : DeclareLaunchArgument.t)
    (x v : string) :
  context !! x = Some v → execute_argument context a !! x = Some v.
Proof.
  intros Hx. unfold execute_argument.
  destruct (context !! DeclareLaunchArgument.name a) as [w|] eqn:Hw; [done|].
  rewrite lookup_insert_ne; [done|]. intros Heq. congruence.
Qed.

(** Resolution keeps the keys of a parameter set, in order. *)
Lemma evaluate_parameters_keys
    (context : gmap string string) (d : list (string * SomeValue))
    (ps : list (string * ParameterValue)) :
  evaluate_parameters context d = Ok ps → dict_keys ps = dict_keys d.
Proof.
  revert ps. induction d as [|[k v] d IH]; intros ps; simpl.
  - intros [= <-]. reflexivity.
  - destruct (evaluate_value context v) as [v'|e]; simpl; [|discriminate].
    destruct (evaluate_parameters context d) as [rest|e]; simpl; [|discriminate].
    intros [= <-]. simpl. f_equal. by apply IH.
Qed.

(** A parameter set resolves as soon as every name it refers to is
    resolved in the context. *)
Lemma evaluate_parameters_total
    (context : gmap string string) (d : list (string * SomeValue)) :
  (∀ x, x ∈ flat_map (fun kv => value_references (snd kv)) d →
        is_Some (context !! x)) →
  ∃ ps, evaluate_parameters context d = Ok ps.
Proof.
  induction d as [|[k v] d IH]; intros Hrefs; simpl.
  - by eexists.
  - destruct IH as [rest Hrest].
    { intros x Hx. apply Hrefs. simpl. apply elem_of_app. by right. }
    rewrite Hrest.
    destruct v as [[x]| | | |]; simpl; try by eexists.
    destruct (Hrefs x) as [w Hw].
    { simpl. left. }
    rewrite Hw. simpl. by eexists.
Qed.

(** A sequence in which every reference follows its declaration resolves
    from every context, whatever the overrides. *)
Lemma visit_all_declared
    (es : list LaunchDescriptionEntity) (declared : list string)
    (context : gmap string string) :
  declared_before_use declared es = true →
  (∀ x, x ∈ declared → is_Some (context !! x)) →
  ∃ context' ps, visit_all context es = Ok (context', ps).
Proof.
  revert declared context.
  induction es as [|[a|n] es IH]; intros declared context Hok Hctx; simpl.
  - by do 2 eexists.
  - simpl in Hok. apply (IH _ _ Hok).
    intros x Hx. apply elem_of_cons in Hx as [->|Hx].
    + rewrite execute_argument_lookup. by eexists.
    + destruct (Hctx x Hx) as [v Hv].
      exists v. by apply execute_argument_preserves.
  - simpl in Hok. apply andb_true_iff in Hok as [Hrefs Hok].
    destruct (evaluate_parameters_total context (node_parameters n)) as [ps Hps].
    { intros x Hx. apply Hctx.
      rewrite forallb_forall in Hrefs.
      apply list_elem_of_In in Hx. specialize (Hrefs x Hx).
      by apply bool_decide_eq_true in Hrefs. }
    destruct (IH _ _ Hok Hctx) as (context' & qs & Hqs).
    unfold execute_node. rewrite Hps. simpl. rewrite Hqs. simpl.
    by do 2 eexists.
Qed.

(** What the runtime spawns for the bridge node once [port] is resolved. *)
Lemma execute_rosbridge_node (context : gmap string string) (v : string) :
  context !! "port" = Some v →
  execute_node context rosbridge_node = Ok (resolved_bridge v).
Proof.
  intros Hv. unfold execute_node, rosbridge_node, node_parameters.
  cbn [Node.parameters concat app evaluate_parameters evaluate_value perform
       Node.package Node.executable Node.name Node.output].
  rewrite Hv, float_of_Z_5. reflexivity.
Qed.

Lemma execute_rosapi_node (context : gmap string string) :
  execute_node context rosapi_node = Ok resolved_api.
Proof. reflexivity. Qed.

(** Every run of the description resolves, to the processes of the
    overridden port or of the default one. *)
Lemma launch_generate_launch_description
    (u : unit) (launch_arguments : gmap string string) :
  launch launch_arguments (generate_launch_description u)
  = Ok (resolved_processes (default "9090" (launch_arguments !! "port"))).
Proof.
  unfold launch, generate_launch_description.
  cbn [LaunchDescription.entities visit_all].
  pose proof (execute_argument_lookup launch_arguments port_arg) as Hp.
  cbn [port_arg DeclareLaunchArgument.name
       DeclareLaunchArgument.default_value] in Hp.
  rewrite (execute_rosbridge_node _ _ Hp).
  rewrite execute_rosapi_node.
  reflexivity.
Qed.

(** Order matters to the runtime: the same three entities with the bridge
    node ahead of the argument do not resolve when there is no override. *)
Lemma reference_before_declaration_fails :
  launch ∅ (LaunchDescription.make
              [ENode rosbridge_node; EArgument port_arg; ENode rosapi_node])
  = Raise (SubstitutionFailure "port").
Proof. vm_compute. reflexivity. Qed.

(** ** The call of the assembler: general facts *)


Lemma py_bind_inl {W E A B : Type}
    (m : Py W E A) (f : A → Py W E B) (w w' : W) (e : E) :
  m w = (inl e, w') → (m ≫= f) w = (inl e, w').
Proof. intros H. unfold mbind, py_bind. by rewrite H. Qed.



(** An exception of the call is an exception of one of the constructor
    calls it makes, with the state that this constructor left: the
    assembler raises nothing of its own. *)
Lemma exception_originates_in_library
    {W E : Type} (lib : LaunchLibrary W E) (w w' : W) (e : E) :
  generate_launch_description_call lib w = (inl e, w') →
  ∃ w0,
    (∃ n d s, new_DeclareLaunchArgument lib n d s w0 = (inl e, w'))
    ∨ (∃ x, new_LaunchConfiguration lib x w0 = (inl e, w'))
    ∨ (∃ p ex n o ps, new_Node lib p ex n o ps w0 = (inl e, w'))
    ∨ (∃ es, new_LaunchDescription lib es w0 = (inl e, w')).
Proof.
  unfold generate_launch_description_call, mbind, py_bind.
  destruct (new_DeclareLaunchArgument lib _ _ _ w) as [[e1|a] w1] eqn:H1.
  { intros [= <- <-]. exists w. left. eauto. }
  destruct (new_LaunchConfiguration lib _ w1) as [[e2|c] w2] eqn:H2.
  { intros [= <- <-]. exists w1. right; left. eauto. }
  destruct (new_Node lib _ _ _ _ _ w2) as [[e3|b] w3] eqn:H3.
  { intros [= <- <-]. exists w2. right; right; left. eauto 10. }
  destruct (new_Node lib _ _ _ _ _ w3) as [[e4|r] w4] eqn:H4.
  { intros [= <- <-]. exists w3. right; right; left. eauto 10. }
  intros H5. exists w4. right; right; right. eauto.
Qed.

(** The exception of a library that refuses the API package reaches the
    caller, after the three objects built before it. *)
Lemma strict_library_raises :
  generate_launch_description_call strict_library 0%nat
  = (inl "package not found: rosapi", 3%nat).
Proof. vm_compute. reflexivity. Qed.

(** The call makes five constructor calls. *)
Lemma counting_library_five (w : nat) :
  generate_launch_description_call counting_library w
  = (inr (generate_launch_description tt), (5 + w)%nat).
Proof. reflexivity. Qed.

(** ** The claims *)

(** C1: when the [port] argument is not overridden, the bridge process of
    the returned description has its [port] parameter resolved to the string
    ["9090"], which is the default value of the one declared argument. *)
Theorem default_port_9090
    (u : unit) (launch_arguments : gmap string string) :
  launch_arguments !! "port" = None →
  (DeclareLaunchArgument.default_value
     <$> argument_declaration (generate_launch_description u)) = Some "9090"
  ∧ ∃ bridge,
      bridge_process (launch launch_arguments (generate_launch_description u))
      = Some bridge
      ∧ dict_get "port" (Process.parameters bridge) = Some (PStr "9090").
Proof.
  intros Hnone. split; [reflexivity|].
  rewrite launch_generate_launch_description, Hnone.
  exists (resolved_bridge "9090"). split; reflexivity.
Qed.

Lemma default_port_9090_witness :
  ({[ "address" := "127.0.0.1" ]} : gmap string string) !! "port" = None
  ∧ (DeclareLaunchArgument.default_value
       <$> argument_declaration (generate_launch_description tt)) = Some "9090"
  ∧ ∃ bridge,
      bridge_process
        (launch {[ "address" := "127.0.0.1" ]} (generate_launch_description tt))
      = Some bridge
      ∧ dict_get "port" (Process.parameters bridge) = Some (PStr "9090").
Proof.
  split; [reflexivity|].
  apply (default_port_9090 tt {[ "address" := "127.0.0.1" ]}). reflexivity.
Defined.

(** C2: an override [v] of [port] reaches the bridge process unchanged as
    its [port] parameter; the six other bridge parameters keep their literal
    values; and every run, whatever its overrides, spawns the same two
    processes up to the value of that one parameter. *)
Theorem port_override_passed_through
    (u : unit) (launch_arguments : gmap string string) (v : string) :
  launch_arguments !! "port" = Some v →
  (∃ bridge,
      bridge_process (launch launch_arguments (generate_launch_description u))
      = Some bridge
      ∧ dict_keys (Process.parameters bridge)
        = ["port"; "address"; "use_compression"; "max_message_size";
           "send_action_goals_in_new_thread"; "call_services_in_new_thread";
           "default_call_service_timeout"]
      ∧ dict_get "port" (Process.parameters bridge) = Some (PStr v)
      ∧ dict_get "address" (Process.parameters bridge) = Some (PStr "0.0.0.0")
      ∧ dict_get "use_compression" (Process.parameters bridge)
        = Some (PBool false)
      ∧ dict_get "max_message_size" (Process.parameters bridge)
        = Some (PInt 10000000)
      ∧ dict_get "send_action_goals_in_new_thread" (Process.parameters bridge)
        = Some (PBool true)
      ∧ dict_get "call_services_in_new_thread" (Process.parameters bridge)
        = Some (PBool true)
      ∧ dict_get "default_call_service_timeout" (Process.parameters bridge)
        = Some (PFloat (float_of_Z 5)))
  ∧ launch launch_arguments (generate_launch_description u)
    = Ok (resolved_processes v)
  ∧ ∀ other_arguments : gmap string string,
      ∃ w, launch other_arguments (generate_launch_description u)
           = Ok (resolved_processes w).
Proof.
  intros Hv. rewrite launch_generate_launch_description, Hv.
  split; [|split; [reflexivity|]].
  - exists (resolved_bridge v). rewrite float_of_Z_5.
    repeat split; reflexivity.
  - intros other_arguments. eexists.
    apply launch_generate_launch_description.
Qed.

Lemma port_override_passed_through_witness :
  ({[ "port" := "8080" ]} : gmap string string) !! "port" = Some "8080"
  ∧ launch {[ "port" := "8080" ]} (generate_launch_description tt)
    = Ok (resolved_processes "8080").
Proof.
  split; [reflexivity|].
  apply (port_override_passed_through tt {[ "port" := "8080" ]} "8080").
  reflexivity.
Defined.

(** C3: every call returns exactly three entities, one argument declaration
    and two process specs, in the order port argument, bridge spec, API
    spec; so the argument is declared before the spec that refers to it. *)
Theorem three_entities_in_order (u : unit) :
  let es := LaunchDescription.entities (generate_launch_description u) in
  es = [EArgument port_arg; ENode rosbridge_node; ENode rosapi_node]
  ∧ length es = 3%nat
  ∧ length (List.filter is_argument es) = 1%nat
  ∧ length (List.filter is_node es) = 2%nat
  ∧ argument_declaration (generate_launch_description u) = Some port_arg
  ∧ bridge_process_spec (generate_launch_description u) = Some rosbridge_node
  ∧ api_process_spec (generate_launch_description u) = Some rosapi_node
  ∧ DeclareLaunchArgument.name port_arg = "port"
  ∧ node_references rosbridge_node = ["port"]
  ∧ node_references rosapi_node = []
  ∧ declared_before_use [] es = true.
Proof. repeat split; reflexivity. Qed.

(** C4: the bridge spec carries exactly seven parameters: [port], which is
    the deferred argument, and the six fixed ones with the tabulated values
    (address "0.0.0.0", use_compression false, max_message_size 10000000,
    both new-thread flags true, default_call_service_timeout 5.0). *)
Theorem bridge_fixed_parameters (u : unit) :
  ∃ bridge,
    bridge_process_spec (generate_launch_description u) = Some bridge
    ∧ Node.parameters bridge = Some [
        [ ("port", VSubstitution (LaunchConfiguration "port"));
          ("address", VStr "0.0.0.0");
          ("use_compression", VBool false);
          ("max_message_size", VInt 10000000);
          ("send_action_goals_in_new_thread", VBool true);
          ("call_services_in_new_thread", VBool true);
          ("default_call_service_timeout",
           VFloat (S754_finite false (5 * 2 ^ 50) (-50))) ] ]
    ∧ dict_keys (node_parameters bridge)
      = ["port"; "address"; "use_compression"; "max_message_size";
         "send_action_goals_in_new_thread"; "call_services_in_new_thread";
         "default_call_service_timeout"].
Proof.
  exists rosbridge_node. split; [reflexivity|].
  split; [unfold rosbridge_node; rewrite float_of_Z_5; reflexivity|].
  reflexivity.
Qed.

(** C5: for every call and every override, the API spec (package [rosapi])
    carries no parameter at all, and so no [port]; the process spawned from
    it has only its identity fields. *)
Theorem api_spec_no_parameters
    (u : unit) (launch_arguments : gmap string string) :
  ∃ api,
    api_process_spec (generate_launch_description u) = Some api
    ∧ Node.package api = "rosapi"
    ∧ Node.parameters api = None
    ∧ node_parameters api = []
    ∧ dict_get "port" (node_parameters api) = None
    ∧ ∃ p, api_process (launch launch_arguments (generate_launch_description u))
           = Some p
        ∧ Process.package p = "rosapi"
        ∧ Process.parameters p = []
        ∧ ∀ key, dict_get key (Process.parameters p) = None.
Proof.
  exists rosapi_node. repeat (split; [reflexivity|]).
  rewrite launch_generate_launch_description.
  exists resolved_api. repeat (split; [reflexivity|]).
  intros key. reflexivity.
Qed.

(** C6: the bridge spec is package [rosbridge_server], executable
    [rosbridge_websocket]; the API spec is package [rosapi], executable
    [rosapi_node]; both send their output to [screen]. *)
Theorem process_identity_and_output (u : unit) :
  ∃ bridge api,
    bridge_process_spec (generate_launch_description u) = Some bridge
    ∧ api_process_spec (generate_launch_description u) = Some api
    ∧ Node.package bridge = "rosbridge_server"
    ∧ Node.executable bridge = "rosbridge_websocket"
    ∧ Node.output bridge = "screen"
    ∧ Node.package api = "rosapi"
    ∧ Node.executable api = "rosapi_node"
    ∧ Node.output api = "screen".
Proof. exists rosbridge_node, rosapi_node. repeat split; reflexivity. Qed.





(** C9: the display name of the bridge spec is [rosbridge_websocket], the
    same as its executable; the display name of the API spec is [rosapi],
    which is not its executable [rosapi_node]. *)
Theorem display_names (u : unit) :
  ∃ bridge api,
    bridge_process_spec (generate_launch_description u) = Some bridge
    ∧ api_process_spec (generate_launch_description u) = Some api
    ∧ Node.name bridge = "rosbridge_websocket"
    ∧ Node.name bridge = Node.executable bridge
    ∧ Node.name api = "rosapi"
    ∧ Node.executable api = "rosapi_node"
    ∧ Node.name api ≠ Node.executable api.
Proof.
  exists rosbridge_node, rosapi_node.
  repeat (split; [reflexivity|]). discriminate.
Qed.

(** C10: the declared [port] argument carries the description
    [Port for rosbridge websocket server]. *)
Theorem port_argument_description (u : unit) :
  ∃ a,
    argument_declaration (generate_launch_description u) = Some a
    ∧ DeclareLaunchArgument.name a = "port"
    ∧ DeclareLaunchArgument.description a
      = "Port for rosbridge websocket server".
Proof. exists port_arg. repeat split; reflexivity. Qed.
